(** * Tree explorer router: serializer and ingestion endpoint

    A shallow embedding of [server/routers/tree_explorer.py]:
    the serializer [_filesystem_node_to_json] and the endpoint
    [get_tree_data], together with the parts of [pathlib] and [str]
    they rely on.  Python [int] is [Z], [str] is [string] (ASCII
    behaviour of [str.lower]), a [dict] is an insertion-ordered
    association list, exceptions are values of [PyException]. *)

From Stdlib Require Import ZArith String Ascii List Lia DecimalString.
From stdpp Require Import base option list gmap strings.

Local Open Scope Z_scope.
Local Open Scope string_scope.

(** ** Python strings *)

(** The line feed character written [\n] in the source. *)
Definition NL : ascii := "010"%char.

Definition LF : string := String NL EmptyString.

Definition is_upper (c : ascii) : bool :=
  let n := nat_of_ascii c in (65 <=? n)%nat && (n <=? 90)%nat.

Definition lower_ascii (c : ascii) : ascii :=
  if is_upper c then ascii_of_nat (nat_of_ascii c + 32) else c.

(** [str.lower], on ASCII text. *)
Fixpoint lower (s : string) : string :=
  match s with
  | EmptyString => EmptyString
  | String c s' => String (lower_ascii c) (lower s')
  end.

(** [str.isascii]. *)
Fixpoint is_ascii (s : string) : bool :=
  match s with
  | EmptyString => true
  | String c s' => (nat_of_ascii c <? 128)%nat && is_ascii s'
  end.

(** [str.lower] on arbitrary text.  Text outside ASCII is held as its
    UTF-8 bytes, and the Unicode case tables of the interpreter are not
    part of the sources: the mapping is a parameter, of which it is
    known that it acts on ASCII text as [lower] does. *)
Class CaseMapping := {
  str_lower : string → string;
  str_lower_ascii : ∀ s, is_ascii s = true → str_lower s = lower s
}.

(** The case mapping restricted to ASCII, for examples on ASCII names. *)
Definition ascii_case_mapping : CaseMapping :=
  {| str_lower := lower; str_lower_ascii := λ _ _, eq_refl |}.

(** [str.rfind(c)]: index of the last occurrence, [None] for Python's -1. *)
Fixpoint rfind (c : ascii) (s : string) : option nat :=
  match s with
  | EmptyString => None
  | String a s' =>
      match rfind c s' with
      | Some i => Some (S i)
      | None => if Ascii.eqb a c then Some 0%nat else None
      end
  end.

(** The slice [s[i:]]. *)
Fixpoint slice_from (i : nat) (s : string) : string :=
  match i, s with
  | O, _ => s
  | S _, EmptyString => EmptyString
  | S i', String _ s' => slice_from i' s'
  end.

(** [str.lstrip(c)] and [str.rstrip(c)] for a single character. *)
Fixpoint lstrip (c : ascii) (s : string) : string :=
  match s with
  | EmptyString => EmptyString
  | String a s' => if Ascii.eqb a c then lstrip c s' else s
  end.

Fixpoint rstrip (c : ascii) (s : string) : string :=
  match s with
  | EmptyString => EmptyString
  | String a s' =>
      match rstrip c s' with
      | EmptyString => if Ascii.eqb a c then EmptyString else String a EmptyString
      | r => String a r
      end
  end.

Definition strip (c : ascii) (s : string) : string := rstrip c (lstrip c s).

(** [str.split(c)]. *)
Fixpoint split (c : ascii) (s : string) : list string :=
  match s with
  | EmptyString => [EmptyString]
  | String a s' =>
      if Ascii.eqb a c then EmptyString :: split c s'
      else match split c s' with
           | [] => [String a EmptyString]
           | w :: ws => String a w :: ws
           end
  end.

(** [sep.join(parts)]. *)
Fixpoint join (sep : string) (l : list string) : string :=
  match l with
  | [] => EmptyString
  | [x] => x
  | x :: rest => x +:+ sep +:+ join sep rest
  end.

(** [str(n)] for an [int], as used by the f-string of the summary. *)
Definition str_of_int (z : Z) : string := NilZero.string_of_int (Z.to_int z).

(** Truthiness of a [str]: the empty string is falsy. *)
Definition truthy (s : string) : bool :=
  match s with EmptyString => false | _ => true end.

(** The lines of a text ([str.split] on the line feed). *)
Definition lines (s : string) : list string := split NL s.

(** ** [pathlib.PurePosixPath] *)

(** A path is its anchor (absolute or not) and its components. *)
Record Path := mkPath { absolute : bool; parts : list string }.

#[global] Instance Path_eq_dec : EqDecision Path.
Proof. solve_decision. Defined.

#[global] Instance Path_countable : Countable Path.
Proof.
  refine (inj_countable' (λ p, (absolute p, parts p))
            (λ t, mkPath t.1 t.2) _).
  by intros [].
Defined.

Definition is_component (s : string) : bool :=
  negb (String.eqb s "") && negb (String.eqb s ".").

(** [Path(s)]: absolute when [s] starts with a slash; empty and [.]
    components are dropped, [..] is kept.  (The POSIX root of exactly
    two leading slashes is read as the ordinary root.) *)
Definition Path_of (s : string) : Path :=
  {| absolute := match s with String a _ => Ascii.eqb a "/" | EmptyString => false end;
     parts := filter (λ x, is_component x = true) (split "/" s) |}.

(** [str(p)] and [p.as_posix()]. *)
Definition as_posix (p : Path) : string :=
  if absolute p then "/" +:+ join "/" (parts p)
  else match parts p with
       | [] => "."
       | ps => join "/" ps
       end.

(** [p / s] for a string right operand. *)
Definition joinpath (p : Path) (s : string) : Path :=
  let q := Path_of s in
  if absolute q then q
  else {| absolute := absolute p; parts := parts p ++ parts q |}.

(** [p.name]: the final component, empty when there is none. *)
Definition path_name (p : Path) : string := List.last (parts p) "".

(** [PurePath.suffix]:
    [i = name.rfind('.')]; [name[i:]] when [0 < i < len(name) - 1]. *)
Definition name_suffix (nm : string) : string :=
  match rfind "." nm with
  | Some i =>
      if (0 <? i)%nat && (i <? String.length nm - 1)%nat
      then slice_from i nm else ""
  | None => ""
  end.

Definition suffix (p : Path) : string := name_suffix (path_name p).

(** ** Exceptions *)

(** An exception object: its class and what [str(e)] gives. *)
Record PyException := mkExc { exc_class : string; exc_str : string }.

Fixpoint strip_prefix (base l : list string) : option (list string) :=
  match base, l with
  | [], _ => Some l
  | b :: base', x :: l' =>
      if String.eqb b x then strip_prefix base' l' else None
  | _ :: _, [] => None
  end.

(** [p.relative_to(base)], raising [ValueError] when [p] is not under
    [base]. *)
Definition relative_to (p base : Path) : PyException + Path :=
  if Bool.eqb (absolute p) (absolute base) then
    match strip_prefix (parts base) (parts p) with
    | Some rest => inr {| absolute := false; parts := rest |}
    | None => inl (mkExc "ValueError" "path is not in the subpath of base")
    end
  else inl (mkExc "ValueError" "path is not in the subpath of base").

(** ** JSON values and dictionaries *)

#[warning="-register-all"] Inductive json :=
| JNull
| JBool (b : bool)
| JInt (z : Z)
| JStr (s : string)
| JList (l : list json)
| JDict (d : list (string * json)).

(** A [dict] with string keys, in insertion order. *)
Definition Dict := list (string * json).

(** [d.get(k)] / [k in d]. *)
Fixpoint dict_get (k : string) (d : Dict) : option json :=
  match d with
  | [] => None
  | (k', v) :: d' => if String.eqb k k' then Some v else dict_get k d'
  end.

(** [d[k] = v]: overwrite in place, or append a new key. *)
Fixpoint dict_set (k : string) (v : json) (d : Dict) : Dict :=
  match d with
  | [] => [(k, v)]
  | (k', v') :: d' =>
      if String.eqb k k' then (k, v) :: d' else (k', v') :: dict_set k v d'
  end.

Definition dict_keys (d : Dict) : list string := map fst d.

Definition has_key (k : string) (d : Dict) : bool :=
  match dict_get k d with Some _ => true | None => false end.

(** ** [gitingest.schemas] *)

(** Modelled from the spec: the declaration of [FileSystemNodeType] is
    not part of the sources at hand; the data model gives the two kinds. *)
Inductive FileSystemNodeType := FILE | DIRECTORY.

#[global] Instance FileSystemNodeType_eq_dec : EqDecision FileSystemNodeType.
Proof. solve_decision. Defined.

(** [member.name] of the enumeration. *)
Definition type_name (t : FileSystemNodeType) : string :=
  match t with FILE => "FILE" | DIRECTORY => "DIRECTORY" end.

(** Modelled from the spec: the declaration of the dataclass
    [FileSystemNode] is not part of the sources at hand; the fields are
    those of the data model and of the constructor calls in the router
    and its tests. *)
#[warning="-register-all"] Inductive FileSystemNode := mkNode {
  name : string;
  type : FileSystemNodeType;
  path_str : string;
  path : Path;
  size : Z;
  depth : Z;
  file_count : Z;
  dir_count : Z;
  children : list FileSystemNode
}.

(** Modelled from the spec: the declaration of [FileSystemStats] is not
    part of the sources at hand; one accumulator per ingestion call. *)
Record FileSystemStats := mkStats {
  visited : gset Path;
  total_files : Z;
  total_size : Z
}.

(** ** The serializer *)

Section Serializer.

Context {L : CaseMapping}.

(** Modelled from the spec: the property [FileSystemNode.content] is
    not part of the sources at hand; it is the text of the file at the
    node's path, a string (possibly empty) whose computation never
    fails. *)
Variable content : Path → string.

(** The dictionary literal of the seven common fields. *)
Definition common_fields (node : FileSystemNode) : Dict :=
  [ ("name", JStr (name node));
    ("type", JStr (lower (type_name (type node))));
    ("path", JStr (path_str node));
    ("size", JInt (size node));
    ("depth", JInt (depth node));
    ("file_count", JInt (file_count node));
    ("dir_count", JInt (dir_count node)) ].

(** [node.path.suffix.lower() if node.path.suffix else ""] *)
Definition extension_of (p : Path) : string :=
  if truthy (suffix p) then str_lower (suffix p) else "".

Fixpoint _filesystem_node_to_json (node : FileSystemNode) : Dict :=
  let result := common_fields node in
  match type node with
  | FILE =>
      let result := dict_set "content" (JStr (content (path node))) result in
      let result := dict_set "extension" (JStr (extension_of (path node))) result in
      result
  | DIRECTORY =>
      let result :=
        dict_set "children"
          (JList (map (λ child, JDict (_filesystem_node_to_json child))
                    (children node)))
          result in
      result
  end.

End Serializer.

(** ** The serializer over Python objects

    [FileSystemNode] objects live in a store and refer to their children
    by reference; a call of the serializer reads the store.  Recursion
    is bounded by fuel. *)

Definition loc := positive.

Record NodeObj := mkObj {
  o_name : string;
  o_type : FileSystemNodeType;
  o_path_str : string;
  o_path : Path;
  o_size : Z;
  o_depth : Z;
  o_file_count : Z;
  o_dir_count : Z;
  o_children : list loc
}.

Abbreviation Store := (gmap loc NodeObj).

Inductive outcome (A : Type) :=
| Ok (a : A)
| Raise (e : PyException)
| OutOfFuel.

Arguments Ok {A} a.
Arguments Raise {A} e.
Arguments OutOfFuel {A}.

(** Computations over the object store. *)
Definition Heap (A : Type) : Type := Store → outcome A * Store.

#[global] Instance Heap_ret : MRet Heap := λ A a σ, (Ok a, σ).

#[global] Instance Heap_bind : MBind Heap := λ A B f m σ,
  match m σ with
  | (Ok a, σ') => f a σ'
  | (Raise e, σ') => (Raise e, σ')
  | (OutOfFuel, σ') => (OutOfFuel, σ')
  end.

(** Following a reference to a node object. *)
Definition deref (l : loc) : Heap NodeObj := λ σ,
  match σ !! l with
  | Some o => (Ok o, σ)
  | None => (Raise (mkExc "ReferenceError" "no such object"), σ)
  end.

Definition out_of_fuel {A} : Heap A := λ σ, (OutOfFuel, σ).

(** The tree value a stored object stands for. *)
#[warning="-register-all"] Inductive represents (σ : Store) : loc → FileSystemNode → Prop :=
| represents_node l o n :
    σ !! l = Some o →
    o_name o = name n →
    o_type o = type n →
    o_path_str o = path_str n →
    o_path o = path n →
    o_size o = size n →
    o_depth o = depth n →
    o_file_count o = file_count n →
    o_dir_count o = dir_count n →
    Forall2 (represents σ) (o_children o) (children n) →
    represents σ l n.

(** Number of levels of a tree. *)
Fixpoint height (n : FileSystemNode) : nat :=
  S (max_list (height <$> children n)).

Section HeapSerializer.

Context {L : CaseMapping}.

Variable content : Path → string.

Definition obj_common_fields (node : NodeObj) : Dict :=
  [ ("name", JStr (o_name node));
    ("type", JStr (lower (type_name (o_type node))));
    ("path", JStr (o_path_str node));
    ("size", JInt (o_size node));
    ("depth", JInt (o_depth node));
    ("file_count", JInt (o_file_count node));
    ("dir_count", JInt (o_dir_count node)) ].

Fixpoint node_to_json_heap (fuel : nat) (l : loc) : Heap Dict :=
  match fuel with
  | O => out_of_fuel
  | S fuel' =>
      node ← deref l;
      let result := obj_common_fields node in
      match o_type node with
      | FILE =>
          let result := dict_set "content" (JStr (content (o_path node))) result in
          let result := dict_set "extension" (JStr (extension_of (o_path node))) result in
          mret result
      | DIRECTORY =>
          docs ← mapM (node_to_json_heap fuel') (o_children node);
          mret (dict_set "children" (JList (JDict <$> docs)) result)
      end
  end.

End HeapSerializer.

(** ** The endpoint *)

(** Computations over the outside world (network, clone directory)
    that may raise. *)
Definition Eff (W A : Type) : Type := W → (PyException + A) * W.

#[global] Instance Eff_ret W : MRet (Eff W) := λ A a w, (inr a, w).

#[global] Instance Eff_bind W : MBind (Eff W) := λ A B f m w,
  match m w with
  | (inr a, w') => f a w'
  | (inl e, w') => (inl e, w')
  end.

(** A pure step that may raise. *)
Definition lift_result {W A} (r : PyException + A) : Eff W A := λ w, (r, w).

(** A read of the world. *)
Definition reads {W A} (f : W → A) : Eff W A := λ w, (inr (f w), w).

(** The attributes of the parsed query that the router reads. *)
Record Query := mkQuery {
  subpath : string;
  local_path : Path;
  slug : string;
  url : option string;
  user_name : option string;
  repo_name : option string
}.

(** The collaborators of the router: query parsing, cloning, the file
    system and the tree builder of [gitingest], none of which is part of
    the sources at hand, and the defaults of the [FileSystemNode]
    constructor.  [path.is_dir()] is taken as a test that answers, and
    the construction of the response as a value: an [OSError] of the
    former or a failure to encode the latter is not modelled. *)
Record Collaborators := mkCollaborators {
  World : Type;
  CloneConfig : Type;
  parse_query : string → Z → bool → option string → Eff World Query;
  extract_clone_config : Query → PyException + CloneConfig;
  clone_repo : CloneConfig → option string → Eff World unit;
  is_dir : World → Path → bool;
  _process_node :
    FileSystemNode → Query → FileSystemStats →
    Eff World (FileSystemNode * FileSystemStats);
  read_content : World → Path → string;
  default_size : Z;
  default_depth : Z;
  default_file_count : Z;
  default_dir_count : Z
}.

Record JSONResponse := mkResponse { status_code : Z; body : Dict }.

(** Modelled from the spec: [FileSystemStats()] is created fresh at the
    start of one ingestion call: nothing visited, counters at zero. *)
Definition FileSystemStats_new : FileSystemStats :=
  {| visited := ∅; total_files := 0; total_size := 0 |}.

Definition opt_str (o : option string) : json :=
  match o with Some s => JStr s | None => JNull end.

Definition note_empty : string := "Note: Repository appears to be empty".

(** [None if token == "" else token] *)
Definition resolve_token (token : string) : option string :=
  if String.eqb token "" then None else Some token.

(** The root path the router resolves for a query:
    [query.local_path / Path(query.subpath.strip("/")).as_posix()]. *)
Definition root_path (query : Query) : Path :=
  joinpath (local_path query) (as_posix (Path_of (strip "/" (subpath query)))).

Section Endpoint.

Context {L : CaseMapping} (E : Collaborators).

(** The root node as the router constructs it. *)
Definition make_root (query : Query) (p rel : Path) (dir : bool) : FileSystemNode :=
  {| name := if truthy (path_name p) then path_name p else slug query;
     type := if dir then DIRECTORY else FILE;
     path_str := as_posix rel;
     path := p;
     size := default_size E;
     depth := default_depth E;
     file_count := default_file_count E;
     dir_count := default_dir_count E;
     children := [] |}.

Definition make_summary (query : Query) (root_node : FileSystemNode) : string :=
  let summary :=
    "Repository: " +:+ slug query +:+ LF +:+
    "Files: " +:+ str_of_int (file_count root_node) +:+ LF +:+
    "Directories: " +:+ str_of_int (dir_count root_node) in
  if (file_count root_node =? 0)%Z && (dir_count root_node =? 0)%Z
  then summary +:+ LF +:+ note_empty
  else summary.

Definition success_body (query : Query) (root_node : FileSystemNode)
    (json_data : Dict) (summary : string) : Dict :=
  [ ("success", JBool true);
    ("data", JDict json_data);
    ("summary", JStr summary);
    ("repo_info", JDict
       [ ("url", opt_str (url query));
         ("slug", JStr (slug query));
         ("user_name", opt_str (user_name query));
         ("repo_name", opt_str (repo_name query));
         ("total_files", JInt (file_count root_node));
         ("total_dirs", JInt (dir_count root_node)) ]) ].

(** The [try] block. *)
Definition get_tree_data_try (repo_url token : string) (max_file_size : Z)
    : Eff (World E) JSONResponse :=
  let resolved_token := resolve_token token in
  query ← parse_query E repo_url max_file_size true resolved_token;
  clone_config ← lift_result (extract_clone_config E query);
  _ ← clone_repo E clone_config resolved_token;
  let subpath := as_posix (Path_of (strip "/" (subpath query))) in
  let path := joinpath (local_path query) subpath in
  dir ← reads (λ w, is_dir E w path);
  rel ← lift_result (relative_to path (local_path query));
  let root_node := make_root query path rel dir in
  dir' ← reads (λ w, is_dir E w path);
  root_node ←
    (if dir' : bool then
       let stats := FileSystemStats_new in
       built ← _process_node E root_node query stats;
       mret built.1
     else mret root_node);
  json_data ← reads (λ w, _filesystem_node_to_json (read_content E w) root_node);
  let summary := make_summary query root_node in
  mret {| status_code := 200;
          body := success_body query root_node json_data summary |}.

(** The [except Exception] handler. *)
Definition error_response (e : PyException) : JSONResponse :=
  {| status_code := 400;
     body := [ ("success", JBool false); ("error", JStr (exc_str e)) ] |}.

Definition get_tree_data (repo_url token : string) (max_file_size : Z)
    (w : World E) : JSONResponse * World E :=
  match get_tree_data_try repo_url token max_file_size w with
  | (inr response, w') => (response, w')
  | (inl e, w') => (error_response e, w')
  end.

(** The response of a completed ingestion with root node [root]. *)
Definition success_response (query : Query) (root : FileSystemNode)
    (w : World E) : JSONResponse :=
  {| status_code := 200;
     body := success_body query root
               (_filesystem_node_to_json (read_content E w) root)
               (make_summary query root) |}.

(** The root node before the tree builder runs. *)
Definition initial_root (query : Query) (w : World E) : FileSystemNode :=
  make_root query (root_path query)
    {| absolute := false;
       parts := parts (Path_of (as_posix (Path_of (strip "/" (subpath query))))) |}
    (is_dir E w (root_path query)).

End Endpoint.

(** ** Predicates used in the statements *)

(** [c in s] for a character. *)
Fixpoint occurs (c : ascii) (s : string) : bool :=
  match s with
  | EmptyString => false
  | String a s' => Ascii.eqb a c || occurs c s'
  end.

(** The first character of [s], if any, is not [c]. *)
Definition head_not (c : ascii) (s : string) : Prop :=
  match s with
  | EmptyString => True
  | String a _ => Ascii.eqb a c = false
  end.

(** A document mirrors a tree: same kind label, same depth, the
    kind-specific keys of its kind only, and the documents of the
    children in the order of the children. *)
#[warning="-register-all"] Inductive mirrors : FileSystemNode → Dict → Prop :=
| mirrors_file n d :
    type n = FILE →
    dict_get "type" d = Some (JStr "file") →
    dict_get "depth" d = Some (JInt (depth n)) →
    has_key "content" d = true →
    has_key "extension" d = true →
    has_key "children" d = false →
    mirrors n d
| mirrors_directory n d docs :
    type n = DIRECTORY →
    dict_get "type" d = Some (JStr "directory") →
    dict_get "depth" d = Some (JInt (depth n)) →
    dict_get "children" d = Some (JList (JDict <$> docs)) →
    has_key "content" d = false →
    has_key "extension" d = false →
    Forall2 mirrors (children n) docs →
    mirrors n d.

(** The same collaborators with another tree builder. *)
Definition with_builder (E : Collaborators)
    (builder : FileSystemNode → Query → FileSystemStats →
               Eff (World E) (FileSystemNode * FileSystemStats))
    : Collaborators :=
  {| World := World E;
     CloneConfig := CloneConfig E;
     parse_query := parse_query E;
     extract_clone_config := extract_clone_config E;
     clone_repo := clone_repo E;
     is_dir := is_dir E;
     _process_node := builder;
     read_content := read_content E;
     default_size := default_size E;
     default_depth := default_depth E;
     default_file_count := default_file_count E;
     default_dir_count := default_dir_count E |}.

(** The size ceiling of the spec, 1 GiB. *)
Definition GiB : Z := 1024 * 1024 * 1024.

(** ** Fixtures

    Trees, a store and mocked collaborators in the manner of the
    repository's tests. *)

Definition sample_file_node : FileSystemNode :=
  mkNode "child.py" FILE "/test/src/child.py" (Path_of "/test/src/child.py")
    50 2 0 0 [].

Definition sample_dir_node : FileSystemNode :=
  mkNode "src" DIRECTORY "/test/src" (Path_of "/test/src")
    50 1 1 0 [sample_file_node].

Definition sample_file_obj : NodeObj :=
  mkObj "child.py" FILE "/test/src/child.py" (Path_of "/test/src/child.py")
    50 2 0 0 [].

Definition sample_dir_obj : NodeObj :=
  mkObj "src" DIRECTORY "/test/src" (Path_of "/test/src")
    50 1 1 0 [2%positive].

(** Two directory objects with equal fields that share their child. *)
Definition sample_store : Store :=
  <[1%positive := sample_dir_obj]>
    (<[2%positive := sample_file_obj]>
       (<[3%positive := sample_dir_obj]> ∅)).

Definition mock_query : Query :=
  {| subpath := "/";
     local_path := Path_of "/tmp/test-repo";
     slug := "user-repo";
     url := Some "https://github.com/user/repo";
     user_name := Some "user";
     repo_name := Some "repo" |}.

(** Mocked collaborators over a trivial world: the outcome of the
    clone, whether the root path is a directory, and what the tree
    builder makes of the root node are given. *)
Definition mock_env (clone_result : PyException + unit) (dir : bool)
    (build : FileSystemNode → PyException + FileSystemNode * FileSystemStats)
    : Collaborators :=
  {| World := unit;
     CloneConfig := unit;
     parse_query := λ _ _ _ _, mret mock_query;
     extract_clone_config := λ _, inr ();
     clone_repo := λ _ _, lift_result clone_result;
     is_dir := λ _ _, dir;
     _process_node := λ node _ _, lift_result (build node);
     read_content := λ _ _, "";
     default_size := 0;
     default_depth := 0;
     default_file_count := 0;
     default_dir_count := 0 |}.

(** A builder that finds a repository of the given cumulative size. *)
Definition build_sized (total : Z) (node : FileSystemNode)
    : PyException + FileSystemNode * FileSystemStats :=
  inr ({| name := name node; type := type node; path_str := path_str node;
          path := path node; size := total; depth := depth node;
          file_count := 1000; dir_count := 100; children := [] |},
       {| visited := ∅; total_files := 1000; total_size := total |}).

(** A builder that finds nothing under the root. *)
Definition build_empty (node : FileSystemNode)
    : PyException + FileSystemNode * FileSystemStats :=
  inr (node, FileSystemStats_new).

(** ** Further notions used in the statements *)

(** The paths whose content a serialization reads, in the order of the
    reads. *)
Fixpoint content_reads (n : FileSystemNode) : list Path :=
  match type n with
  | FILE => [path n]
  | DIRECTORY => mjoin (content_reads <$> children n)
  end.

(** The node reached from [n] by a list of child indices, going down
    through directories only. *)
Fixpoint node_at (indices : list nat) (n : FileSystemNode) : option FileSystemNode :=
  match indices with
  | [] => Some n
  | i :: rest =>
      match type n with
      | FILE => None
      | DIRECTORY =>
          match children n !! i with
          | Some child => node_at rest child
          | None => None
          end
      end
  end.

(** [d["children"][i]["children"][j]...]: [None] where Python raises
    [KeyError], [IndexError] or [TypeError]. *)
Fixpoint doc_at (indices : list nat) (d : Dict) : option Dict :=
  match indices with
  | [] => Some d
  | i :: rest =>
      match dict_get "children" d with
      | Some (JList docs) =>
          match docs !! i with
          | Some (JDict child) => doc_at rest child
          | _ => None
          end
      | _ => None
      end
  end.

(** [b] is a child of the directory object [a]. *)
Definition dir_edge (σ : Store) (a b : loc) : Prop :=
  ∃ o, σ !! a = Some o ∧ o_type o = DIRECTORY ∧ b ∈ o_children o.

(** The same collaborators with another way of cloning. *)
Definition with_clone (E : Collaborators)
    (clone : CloneConfig E → option string → Eff (World E) unit)
    : Collaborators :=
  {| World := World E;
     CloneConfig := CloneConfig E;
     parse_query := parse_query E;
     extract_clone_config := extract_clone_config E;
     clone_repo := clone;
     is_dir := is_dir E;
     _process_node := _process_node E;
     read_content := read_content E;
     default_size := default_size E;
     default_depth := default_depth E;
     default_file_count := default_file_count E;
     default_dir_count := default_dir_count E |}.

(** Every character of [s] is [c]. *)
Fixpoint all_chars (c : ascii) (s : string) : bool :=
  match s with
  | EmptyString => true
  | String a s' => Ascii.eqb a c && all_chars c s'
  end.

(** A store with a directory that is its own grandchild. *)
Definition cyclic_store : Store :=
  <[1%positive := mkObj "a" DIRECTORY "a" (Path_of "/r/a") 0 0 0 1 [2%positive]]>
    (<[2%positive := mkObj "b" DIRECTORY "a/b" (Path_of "/r/a/b") 0 1 0 1
                       [1%positive]]> ∅).

(** ** Rendering of a response

    [JSONResponse.render]: [json.dumps(content, ensure_ascii=False,
    allow_nan=False, indent=None, separators=(",", ":"))], encoded as
    UTF-8 (text is held as its UTF-8 bytes, so the encoding is the
    identity here). *)









(** ** Two ingestions of one path *)



(** A query whose slug holds a line feed followed by the text of the
    note, and mocked collaborators that parse to it and find a
    repository that is not empty. *)
Definition two_line_query : Query :=
  {| subpath := "/";
     local_path := Path_of "/tmp/test-repo";
     slug := "user-repo" +:+ LF +:+ note_empty;
     url := Some "https://github.com/user/repo";
     user_name := Some "user";
     repo_name := Some "repo" |}.

Definition two_line_env : Collaborators :=
  {| World := unit;
     CloneConfig := unit;
     parse_query := λ _ _ _ _, mret two_line_query;
     extract_clone_config := λ _, inr ();
     clone_repo := λ _ _, mret ();
     is_dir := λ _ _, true;
     _process_node := λ node _ _, lift_result (build_sized 4096 node);
     read_content := λ _ _, "";
     default_size := 0;
     default_depth := 0;
     default_file_count := 0;
     default_dir_count := 0 |}.

(** * Properties *)

Section Properties.

(** The properties hold for every case mapping. *)
Context {L : CaseMapping}.

(** ** Induction on trees *)

Lemma FileSystemNode_children_ind (P : FileSystemNode → Prop) :
  (∀ n, Forall P (children n) → P n) → ∀ n, P n.
Proof.
  intros step. fix IH 1. intros n. apply step.
  destruct n as [? ? ? ? ? ? ? ? cs]. simpl.
  induction cs as [|c cs IHcs]; constructor; [apply IH | apply IHcs].
Qed.

(** ** The serializer on trees *)

Section SerializerFacts.

Variable content : Path → string.

Lemma to_json_file n :
  type n = FILE →
  _filesystem_node_to_json content n =
    (common_fields n ++
      [ ("content", JStr (content (path n)));
        ("extension", JStr (extension_of (path n))) ])%list.
Proof. destruct n; simpl; intros ->; reflexivity. Qed.

Lemma to_json_directory n :
  type n = DIRECTORY →
  _filesystem_node_to_json content n =
    (common_fields n ++
      [ ("children",
         JList (JDict <$> (_filesystem_node_to_json content <$> children n))) ])%list.
Proof.
  destruct n; simpl; intros ->. unfold common_fields; simpl.
  by rewrite <- list_fmap_compose.
Qed.

(** C6: every document carries the seven common fields, each equal to
    the field of the node, the kind under the key [type] as the
    lower-cased label ["file"] or ["directory"]. *)
Theorem common_fields_of_document (n : FileSystemNode) :
  let d := _filesystem_node_to_json content n in
  dict_get "name" d = Some (JStr (name n)) ∧
  dict_get "type" d = Some (JStr (lower (type_name (type n)))) ∧
  lower (type_name (type n)) =
    match type n with FILE => "file" | DIRECTORY => "directory" end ∧
  dict_get "path" d = Some (JStr (path_str n)) ∧
  dict_get "size" d = Some (JInt (size n)) ∧
  dict_get "depth" d = Some (JInt (depth n)) ∧
  dict_get "file_count" d = Some (JInt (file_count n)) ∧
  dict_get "dir_count" d = Some (JInt (dir_count n)) ∧
  take 7 (dict_keys d) =
    ["name"; "type"; "path"; "size"; "depth"; "file_count"; "dir_count"].
Proof.
  destruct (type n) eqn:Hty; simpl.
  - rewrite (to_json_file n Hty). unfold common_fields. rewrite Hty.
    repeat split; reflexivity.
  - rewrite (to_json_directory n Hty). unfold common_fields. rewrite Hty.
    repeat split; reflexivity.
Qed.

(** C1: the document branches exactly on the kind of the node: a FILE
    document has the keys [content] and [extension] and no [children];
    a DIRECTORY document has [children], a list, and neither [content]
    nor [extension]. *)
Theorem document_branches_on_kind (n : FileSystemNode) :
  let d := _filesystem_node_to_json content n in
  match type n with
  | FILE =>
      dict_get "content" d = Some (JStr (content (path n))) ∧
      dict_get "extension" d = Some (JStr (extension_of (path n))) ∧
      dict_get "children" d = None ∧
      dict_keys d =
        ["name"; "type"; "path"; "size"; "depth"; "file_count"; "dir_count";
         "content"; "extension"]
  | DIRECTORY =>
      dict_get "children" d =
        Some (JList (JDict <$> (_filesystem_node_to_json content <$> children n))) ∧
      dict_get "content" d = None ∧
      dict_get "extension" d = None ∧
      dict_keys d =
        ["name"; "type"; "path"; "size"; "depth"; "file_count"; "dir_count";
         "children"]
  end.
Proof.
  destruct (type n) eqn:Hty; simpl.
  - rewrite (to_json_file n Hty). repeat split; reflexivity.
  - rewrite (to_json_directory n Hty). repeat split; reflexivity.
Qed.

Lemma to_json_mirrors n : mirrors n (_filesystem_node_to_json content n).
Proof.
  induction n as [n IH] using FileSystemNode_children_ind.
  destruct (type n) eqn:Hty.
  - rewrite (to_json_file n Hty).
    apply mirrors_file; [done | | reflexivity ..].
    unfold common_fields. by rewrite Hty.
  - rewrite (to_json_directory n Hty).
    eapply mirrors_directory; [done | | reflexivity .. | ].
    + unfold common_fields. by rewrite Hty.
    + apply Forall2_fmap_r, Forall_Forall2_diag, IH.
Qed.

(** C5: serialization follows the tree: the [children] of a DIRECTORY
    document are the documents of the node's children, as many and in
    the same order, each with the depth of its child, and at every
    level the kind-specific keys match the kind of the node. *)
Theorem serialization_preserves_structure (n : FileSystemNode) :
  let d := _filesystem_node_to_json content n in
  mirrors n d ∧
  match type n with
  | FILE => True
  | DIRECTORY =>
      ∃ docs : list Dict,
        dict_get "children" d = Some (JList (JDict <$> docs)) ∧
        length docs = length (children n) ∧
        ∀ (i : nat) (child : FileSystemNode),
          children n !! i = Some child →
          docs !! i = Some (_filesystem_node_to_json content child) ∧
          dict_get "depth" (_filesystem_node_to_json content child) =
            Some (JInt (depth child))
  end.
Proof.
  split; [apply to_json_mirrors |].
  destruct (type n) eqn:Hty; [done |].
  exists (_filesystem_node_to_json content <$> children n).
  split; [| split].
  - rewrite (to_json_directory n Hty). reflexivity.
  - by rewrite length_fmap.
  - intros i child Hi. split.
    + by rewrite list_lookup_fmap, Hi.
    + destruct (type child) eqn:Hc.
      * rewrite (to_json_file child Hc). reflexivity.
      * rewrite (to_json_directory child Hc). reflexivity.
Qed.

End SerializerFacts.

(** The document depends on the content of the files the serializer
    reads and of no other path. *)
Lemma to_json_content_agree
    (content content' : Path → string) (n : FileSystemNode) :
  (∀ p, p ∈ content_reads n → content p = content' p) →
  _filesystem_node_to_json content n = _filesystem_node_to_json content' n.
Proof.
  induction n as [n IH] using FileSystemNode_children_ind. intros Hagree.
  destruct (type n) eqn:Hty.
  - rewrite !(to_json_file _ n Hty), Hagree; [done |].
    destruct n; simpl in *. rewrite Hty. by apply list_elem_of_singleton.
  - rewrite !(to_json_directory _ n Hty).
    enough (_filesystem_node_to_json content <$> children n =
            _filesystem_node_to_json content' <$> children n) as -> by done.
    apply list_fmap_ext. intros i child Hi.
    eapply (proj1 (Forall_lookup _ _) IH); [done |].
    intros p Hp. apply Hagree.
    destruct n; simpl in *. rewrite Hty.
    apply list_elem_of_join. exists (content_reads child). split; [done |].
    apply list_elem_of_fmap. exists child. split; [done |].
    by eapply list_elem_of_lookup_2.
Qed.

(** ** Suffix of a file name *)

Lemma rfind_absent c s : occurs c s = false → rfind c s = None.
Proof.
  induction s as [|a s IH]; simpl; [done |].
  intros [Ha Hs]%orb_false_iff. by rewrite (IH Hs), Ha.
Qed.

Lemma rfind_last_occurrence c stem rest :
  occurs c rest = false →
  rfind c (stem +:+ String c rest) = Some (String.length stem).
Proof.
  intros Hrest. induction stem as [|a stem IH]; simpl.
  - by rewrite (rfind_absent _ _ Hrest), Ascii.eqb_refl.
  - by rewrite IH.
Qed.

Lemma slice_from_app stem rest :
  slice_from (String.length stem) (stem +:+ rest) = rest.
Proof. induction stem as [|a stem IH]; simpl; [by destruct rest | done]. Qed.

Lemma string_length_app (s t : string) :
  String.length (s +:+ t) = (String.length s + String.length t)%nat.
Proof. induction s as [|a s IH]; simpl; [done | by rewrite IH]. Qed.

Lemma name_suffix_split stem ext :
  stem ≠ "" → ext ≠ "" → occurs "." ext = false →
  name_suffix (stem +:+ "." +:+ ext) = "." +:+ ext.
Proof.
  intros Hstem Hext Hfree. unfold name_suffix.
  change (stem +:+ "." +:+ ext) with (stem +:+ String "." ext).
  rewrite (rfind_last_occurrence _ _ _ Hfree), slice_from_app.
  rewrite string_length_app. simpl String.length.
  destruct stem as [|a stem]; [done |]. destruct ext as [|b ext]; [done |].
  simpl String.length.
  replace (0 <? S (String.length stem))%nat with true
    by (symmetry; apply Nat.ltb_lt; lia).
  replace (S (String.length stem) <?
           S (String.length stem) + S (S (String.length ext)) - 1)%nat
    with true by (symmetry; apply Nat.ltb_lt; lia).
  reflexivity.
Qed.

Lemma name_suffix_no_dot nm : occurs "." nm = false → name_suffix nm = "".
Proof. intros H. unfold name_suffix. by rewrite (rfind_absent _ _ H). Qed.

Lemma name_suffix_dotfile rest :
  occurs "." rest = false → name_suffix ("." +:+ rest) = "".
Proof.
  intros H. unfold name_suffix.
  change ("." +:+ rest) with ("" +:+ String "." rest).
  by rewrite (rfind_last_occurrence _ _ _ H).
Qed.

Lemma lower_dot ext : lower ("." +:+ ext) = "." +:+ lower ext.
Proof. reflexivity. Qed.

Lemma str_lower_empty : str_lower "" = "".
Proof. by rewrite str_lower_ascii. Qed.

Lemma extension_of_suffix p :
  extension_of p = str_lower (name_suffix (path_name p)).
Proof.
  unfold extension_of, suffix.
  destruct (name_suffix (path_name p)); [by rewrite str_lower_empty | done].
Qed.

Lemma str_lower_dot_ascii ext :
  is_ascii ext = true → str_lower ("." +:+ ext) = "." +:+ lower ext.
Proof. intros Hext. by rewrite str_lower_ascii, lower_dot. Qed.

(** C4: the [extension] of a FILE document is the lower-cased final
    suffix of the file name (the final component of the node's path),
    with its leading dot, and is empty when the name has no suffix or
    is a dotfile with no further suffix.  Lower-casing is [str.lower],
    whatever the characters of the name. *)
Theorem extension_is_lowered_suffix
    (content : Path → string) (n : FileSystemNode) (nm : string) :
  type n = FILE →
  path_name (path n) = nm →
  let e := dict_get "extension" (_filesystem_node_to_json content n) in
  e = Some (JStr (str_lower (name_suffix nm))) ∧
  (∀ stem ext,
     nm = stem +:+ "." +:+ ext → stem ≠ "" → ext ≠ "" →
     occurs "." ext = false →
     e = Some (JStr (str_lower ("." +:+ ext))) ∧
     (is_ascii ext = true → e = Some (JStr ("." +:+ lower ext)))) ∧
  (occurs "." nm = false → e = Some (JStr "")) ∧
  (∀ rest, nm = "." +:+ rest → occurs "." rest = false → e = Some (JStr "")) ∧
  (nm = "file.py" → e = Some (JStr ".py")) ∧
  (nm = "file.tar.gz" → e = Some (JStr ".gz")) ∧
  (nm = "README" → e = Some (JStr "")) ∧
  (nm = ".hidden" → e = Some (JStr "")).
Proof.
  intros Hty Hnm. simpl.
  assert (He : dict_get "extension" (_filesystem_node_to_json content n) =
               Some (JStr (str_lower (name_suffix nm)))).
  { rewrite (to_json_file content n Hty), <- Hnm, <- extension_of_suffix.
    reflexivity. }
  rewrite He. split; [done |].
  split; [| split; [| split]].
  - intros stem ext -> Hstem Hext Hfree.
    rewrite (name_suffix_split _ _ Hstem Hext Hfree). split; [done |].
    intros Hascii. by rewrite (str_lower_dot_ascii _ Hascii).
  - intros Hfree. by rewrite (name_suffix_no_dot _ Hfree), str_lower_empty.
  - intros rest -> Hfree.
    by rewrite (name_suffix_dotfile _ Hfree), str_lower_empty.
  - repeat split; intros ->;
      (rewrite str_lower_ascii by reflexivity); reflexivity.
Qed.

(** ** The serializer on stored objects *)

Section HeapFacts.

Variable content : Path → string.

Lemma heap_bind_ok {A B} (m : Heap A) (k : A → Heap B) σ a σ' :
  m σ = (Ok a, σ') → (m ≫= k) σ = k a σ'.
Proof. intros H. unfold mbind, Heap_bind. by rewrite H. Qed.

Lemma mapM_heap_docs (f : loc → Heap Dict) (σ : Store) ls (ns : list FileSystemNode) :
  Forall2 (λ l n, f l σ = (Ok (_filesystem_node_to_json content n), σ)) ls ns →
  mapM f ls σ = (Ok (_filesystem_node_to_json content <$> ns), σ).
Proof.
  induction 1 as [|l n ls ns Hl _ IH]; [done |].
  change (mapM f (l :: ls) σ)
    with ((d ← f l; ds ← mapM f ls; mret (d :: ds)) σ).
  rewrite (heap_bind_ok _ _ _ _ _ Hl), (heap_bind_ok _ _ _ _ _ IH).
  reflexivity.
Qed.

(** On a store that holds a tree, the serializer over objects computes
    the document of the tree and leaves the store as it was. *)
Lemma node_to_json_heap_tree σ n :
  ∀ l fuel,
    represents σ l n → (height n ≤ fuel)%nat →
    node_to_json_heap content fuel l σ =
      (Ok (_filesystem_node_to_json content n), σ).
Proof.
  induction n as [n IH] using FileSystemNode_children_ind.
  intros l fuel Hrep Hfuel. inversion Hrep as [l' o n' Hl Hname Hty Hps Hp Hsz Hd Hfc Hdc Hcs]; subst.
  destruct fuel as [|fuel]; [destruct n; simpl in Hfuel; lia |].
  simpl. rewrite (heap_bind_ok _ _ σ o σ) by (unfold deref; by rewrite Hl).
  unfold obj_common_fields.
  rewrite Hname, Hty, Hps, Hp, Hsz, Hd, Hfc, Hdc.
  destruct (type n) eqn:Htn.
  - rewrite (to_json_file content n Htn). unfold common_fields.
    by rewrite Htn.
  - rewrite (heap_bind_ok _ _ σ
               (_filesystem_node_to_json content <$> children n) σ).
    + rewrite (to_json_directory content n Htn). unfold common_fields.
      by rewrite Htn.
    + apply mapM_heap_docs.
      assert (Hh : Forall (λ c, (height c ≤ fuel)%nat) (children n)).
      { apply Forall_forall. intros c Hc.
        assert (height c ≤ max_list (height <$> children n))%nat
          by (apply max_list_elem_of_le, list_elem_of_fmap; eauto).
        destruct n; simpl in *; lia. }
      clear Hrep Hl Hfuel.
      induction Hcs as [|l' c ls cs Hlc _ IHcs]; [constructor |].
      inversion IH; subst. inversion Hh; subst.
      constructor; [by auto | by apply IHcs].
Qed.

End HeapFacts.

Lemma sample_file_represented :
  represents sample_store 2%positive sample_file_node.
Proof. by eapply represents_node; [reflexivity .. | constructor]. Qed.

Lemma sample_dir_represented (l : loc) :
  l = 1%positive ∨ l = 3%positive →
  represents sample_store l sample_dir_node.
Proof.
  intros [-> | ->];
    (eapply represents_node; [reflexivity .. |]);
    repeat constructor; apply sample_file_represented.
Qed.

(** C8: the serializer is total and pure: on every node it returns a
    document, raises nothing, and leaves the node objects and the rest
    of the store as they were. *)
Theorem serializer_total_and_pure
    (content : Path → string) (σ : Store) (l : loc) (n : FileSystemNode)
    (fuel : nat) :
  represents σ l n →
  (height n ≤ fuel)%nat →
  ∃ d : Dict,
    node_to_json_heap content fuel l σ = (Ok d, σ) ∧
    d = _filesystem_node_to_json content n ∧
    represents σ l n.
Proof.
  intros Hrep Hfuel. exists (_filesystem_node_to_json content n).
  split; [by apply node_to_json_heap_tree | done].
Qed.

(** ** Paths *)

Lemma lstrip_head c s : head_not c (lstrip c s).
Proof.
  induction s as [|a s IH]; simpl; [done |].
  destruct (Ascii.eqb a c) eqn:Ha; [done | by simpl].
Qed.

Lemma rstrip_head c s : head_not c s → head_not c (rstrip c s).
Proof.
  destruct s as [|a s]; simpl; [done |]. intros Ha.
  destruct (rstrip c s); [by rewrite Ha |]; done.
Qed.

Lemma strip_head c s : head_not c (strip c s).
Proof. apply rstrip_head, lstrip_head. Qed.

Lemma split_pieces c s : Forall (λ x, occurs c x = false) (split c s).
Proof.
  induction s as [|a s IH]; simpl; [by repeat constructor |].
  destruct (Ascii.eqb a c) eqn:Ha; [by constructor |].
  destruct (split c s) as [|x xs].
  - repeat constructor. simpl. by rewrite Ha.
  - inversion IH as [|? ? Hx Hxs]; subst.
    constructor; [simpl; by rewrite Ha | done].
Qed.

Lemma Path_of_relative s : head_not "/" s → absolute (Path_of s) = false.
Proof. by destruct s. Qed.

Lemma Path_of_parts s :
  Forall (λ x, x ≠ "" ∧ occurs "/" x = false) (parts (Path_of s)).
Proof.
  apply Forall_forall. intros x [Hc Hx]%list_elem_of_filter. split.
  - intros ->. discriminate Hc.
  - by apply (proj1 (Forall_forall _ _) (split_pieces "/" s)).
Qed.

Lemma as_posix_relative_head s :
  head_not "/" s → head_not "/" (as_posix (Path_of s)).
Proof.
  intros Hs. unfold as_posix. rewrite (Path_of_relative s Hs).
  pose proof (Path_of_parts s) as Hparts.
  destruct (parts (Path_of s)) as [|x xs]; [done |].
  inversion Hparts as [|? ? [Hne Hfree] _]; subst.
  destruct x as [|a x]; [done |].
  simpl in Hfree. apply orb_false_iff in Hfree as [Ha _].
  by destruct xs.
Qed.

Lemma strip_prefix_app base rest :
  strip_prefix base (base ++ rest) = Some rest.
Proof.
  induction base as [|b base IH]; simpl; [by destruct rest |].
  by rewrite String.eqb_refl.
Qed.

Lemma relative_to_joinpath lp s :
  absolute (Path_of s) = false →
  relative_to (joinpath lp s) lp =
    inr {| absolute := false; parts := parts (Path_of s) |}.
Proof.
  intros Hs. unfold joinpath, relative_to. rewrite Hs. simpl.
  by rewrite Bool.eqb_reflx, strip_prefix_app.
Qed.

(** The root path always lies under the clone directory: the call of
    [relative_to] in the router does not raise. *)
Lemma relative_to_root_path q :
  relative_to (root_path q) (local_path q) =
    inr {| absolute := false;
           parts := parts (Path_of (as_posix (Path_of (strip "/" (subpath q))))) |}.
Proof.
  apply relative_to_joinpath, Path_of_relative, as_posix_relative_head, strip_head.
Qed.

(** ** The endpoint *)

Section EndpointFacts.

Context (E : Collaborators).

Lemma eff_bind_ok {A B} (m : Eff (World E) A) (k : A → Eff (World E) B) w a w' :
  m w = (inr a, w') → (m ≫= k) w = k a w'.
Proof. intros H. unfold mbind, Eff_bind. by rewrite H. Qed.

Lemma eff_bind_raise {A B} (m : Eff (World E) A) (k : A → Eff (World E) B) w e w' :
  m w = (inl e, w') → (m ≫= k) w = (inl e, w').
Proof. intros H. unfold mbind, Eff_bind. by rewrite H. Qed.

Lemma try_parse_raises url tok mfs w e w1 :
  parse_query E url mfs true (resolve_token tok) w = (inl e, w1) →
  get_tree_data_try E url tok mfs w = (inl e, w1).
Proof. intros H. unfold get_tree_data_try. by apply eff_bind_raise. Qed.

Lemma try_extract_raises url tok mfs w q w1 e :
  parse_query E url mfs true (resolve_token tok) w = (inr q, w1) →
  extract_clone_config E q = inl e →
  get_tree_data_try E url tok mfs w = (inl e, w1).
Proof.
  intros Hq He. unfold get_tree_data_try.
  rewrite (eff_bind_ok _ _ _ _ _ Hq).
  apply eff_bind_raise. unfold lift_result. by rewrite He.
Qed.

Lemma try_clone_raises url tok mfs w q w1 cc e w2 :
  parse_query E url mfs true (resolve_token tok) w = (inr q, w1) →
  extract_clone_config E q = inr cc →
  clone_repo E cc (resolve_token tok) w1 = (inl e, w2) →
  get_tree_data_try E url tok mfs w = (inl e, w2).
Proof.
  intros Hq Hcc He. unfold get_tree_data_try.
  rewrite (eff_bind_ok _ _ _ _ _ Hq).
  rewrite (eff_bind_ok _ _ w1 cc w1) by (unfold lift_result; by rewrite Hcc).
  by apply eff_bind_raise.
Qed.

(** The [try] block once the clone has succeeded. *)
Lemma try_after_clone url tok mfs w q w1 cc w2 :
  parse_query E url mfs true (resolve_token tok) w = (inr q, w1) →
  extract_clone_config E q = inr cc →
  clone_repo E cc (resolve_token tok) w1 = (inr (), w2) →
  get_tree_data_try E url tok mfs w =
    if is_dir E w2 (root_path q) then
      match _process_node E (initial_root E q w2) q FileSystemStats_new w2 with
      | (inr built, w3) => (inr (success_response E q built.1 w3), w3)
      | (inl e, w3) => (inl e, w3)
      end
    else (inr (success_response E q (initial_root E q w2) w2), w2).
Proof.
  intros Hq Hcc Hclone. unfold get_tree_data_try.
  rewrite (eff_bind_ok _ _ _ _ _ Hq).
  rewrite (eff_bind_ok _ _ w1 cc w1) by (unfold lift_result; by rewrite Hcc).
  rewrite (eff_bind_ok _ _ _ _ _ Hclone).
  fold (root_path q). unfold initial_root.
  rewrite (eff_bind_ok _ _ w2 (is_dir E w2 (root_path q)) w2) by done.
  rewrite (eff_bind_ok _ _ w2 _ w2)
    by (unfold lift_result; by rewrite relative_to_root_path).
  rewrite (eff_bind_ok _ _ w2 (is_dir E w2 (root_path q)) w2) by done.
  destruct (is_dir E w2 (root_path q)) eqn:Hdir.
  - destruct (_process_node E _ q FileSystemStats_new w2) as [[e | built] w3] eqn:Hb.
    + apply eff_bind_raise. by apply eff_bind_raise.
    + erewrite eff_bind_ok; [| by erewrite eff_bind_ok].
      reflexivity.
  - reflexivity.
Qed.

End EndpointFacts.

(** ** Lines of the summary *)

Lemma string_app_cons x (a b : string) : String x a +:+ b = String x (a +:+ b).
Proof. reflexivity. Qed.

Lemma string_app_assoc (a b c : string) : (a +:+ b) +:+ c = a +:+ b +:+ c.
Proof.
  induction a as [|x a IH]; [done |].
  by rewrite !string_app_cons, IH.
Qed.

Lemma string_app_empty_r (a : string) : a +:+ "" = a.
Proof.
  induction a as [|x a IH]; [done |].
  by rewrite string_app_cons, IH.
Qed.

Lemma occurs_app c a b : occurs c (a +:+ b) = occurs c a || occurs c b.
Proof.
  induction a as [|x a IH]; [done |].
  rewrite string_app_cons. simpl. by rewrite IH, orb_assoc.
Qed.

Lemma split_not_nil c s : split c s ≠ [].
Proof.
  destruct s as [|a s]; simpl; [done |].
  destruct (Ascii.eqb a c); [done |]. by destruct (split c s).
Qed.

Lemma split_absent c s : occurs c s = false → split c s = [s].
Proof.
  induction s as [|a s IH]; simpl; [done |].
  intros [Ha Hs]%orb_false_iff. by rewrite Ha, (IH Hs).
Qed.

Lemma split_app_sep c a b :
  split c (a +:+ String c b) = (split c a ++ split c b)%list.
Proof.
  induction a as [|x a IH]; [simpl; by rewrite Ascii.eqb_refl |].
  rewrite string_app_cons. simpl.
  - destruct (Ascii.eqb x c); [by rewrite IH |].
    rewrite IH. pose proof (split_not_nil c a).
    by destruct (split c a).
Qed.

Lemma uint_one_line u : occurs NL (NilEmpty.string_of_uint u) = false.
Proof. induction u; simpl; done. Qed.

Lemma str_of_int_one_line z : occurs NL (str_of_int z) = false.
Proof.
  assert (Hu : ∀ u, occurs NL (NilZero.string_of_uint u) = false).
  { intros u. unfold NilZero.string_of_uint.
    destruct u; first [reflexivity | apply uint_one_line]. }
  unfold str_of_int, NilZero.string_of_int.
  destruct (Z.to_int z) as [u | u]; [apply Hu |].
  simpl. apply Hu.
Qed.

Lemma make_summary_shape q r :
  make_summary q r =
    if (file_count r =? 0)%Z && (dir_count r =? 0)%Z then
      ("Repository: " +:+ slug q) +:+
        String NL (("Files: " +:+ str_of_int (file_count r)) +:+
          String NL (("Directories: " +:+ str_of_int (dir_count r)) +:+
            String NL note_empty))
    else
      ("Repository: " +:+ slug q) +:+
        String NL (("Files: " +:+ str_of_int (file_count r)) +:+
          String NL ("Directories: " +:+ str_of_int (dir_count r))).
Proof.
  unfold make_summary.
  destruct ((file_count r =? 0)%Z && (dir_count r =? 0)%Z).
  - rewrite !string_app_assoc. reflexivity.
  - reflexivity.
Qed.

Lemma labelled_one_line (label s : string) :
  occurs NL label = false → occurs NL s = false →
  split NL (label +:+ s) = [label +:+ s].
Proof.
  intros Hl Hs. apply split_absent. by rewrite occurs_app, Hl, Hs.
Qed.

Lemma lines_make_summary q r :
  lines (make_summary q r) =
    (lines ("Repository: " +:+ slug q) ++
     [ "Files: " +:+ str_of_int (file_count r);
       "Directories: " +:+ str_of_int (dir_count r) ] ++
     (if (file_count r =? 0)%Z && (dir_count r =? 0)%Z
      then [note_empty] else []))%list.
Proof.
  rewrite make_summary_shape. unfold lines.
  destruct ((file_count r =? 0)%Z && (dir_count r =? 0)%Z).
  - rewrite !split_app_sep.
    rewrite (labelled_one_line "Files: "), (labelled_one_line "Directories: ")
      by first [reflexivity | apply str_of_int_one_line].
    by rewrite (split_absent NL note_empty).
  - rewrite !split_app_sep.
    by rewrite (labelled_one_line "Files: "), (labelled_one_line "Directories: ")
      by first [reflexivity | apply str_of_int_one_line].
Qed.

Lemma labelled_not_note (label s : string) :
  head_not "N" label → label ≠ "" → label +:+ s ≠ note_empty.
Proof.
  destruct label as [|a label]; [done |]. simpl. intros Ha _.
  rewrite string_app_cons. unfold note_empty. intros [= -> _]. done.
Qed.

(** Where the note on an empty repository stands in the summary. *)
Lemma summary_note q r :
  let summary := make_summary q r in
  let empty := file_count r = 0 ∧ dir_count r = 0 in
  (last (lines summary) = Some note_empty ↔ empty) ∧
  (empty → note_empty ∈ lines summary) ∧
  (occurs NL (slug q) = false → note_empty ∈ lines summary → empty).
Proof.
  simpl. rewrite lines_make_summary.
  destruct ((file_count r =? 0)%Z && (dir_count r =? 0)%Z) eqn:Hc.
  - assert (file_count r = 0 ∧ dir_count r = 0) as Hz
      by (apply andb_true_iff in Hc as [?%Z.eqb_eq ?%Z.eqb_eq]; done).
    split; [| split]; [| | done].
    + split; [done |]. intros _. by rewrite last_app.
    + intros _. rewrite !elem_of_app. right. right.
      by apply list_elem_of_singleton.
  - assert (¬ (file_count r = 0 ∧ dir_count r = 0)) as Hnz.
    { intros [H1 H2]. by rewrite H1, H2 in Hc. }
    split; [| split]; [| done |].
    + split; [| done]. rewrite last_app. simpl. intros [= H].
    + intros Hslug. rewrite app_nil_r.
      unfold lines. rewrite labelled_one_line by done.
      intros Hin. exfalso.
      apply elem_of_cons in Hin as [H | Hin].
      { symmetry in H. by apply labelled_not_note in H. }
      apply elem_of_cons in Hin as [H | Hin].
      { symmetry in H. by apply labelled_not_note in H. }
      apply list_elem_of_singleton in Hin. symmetry in Hin.
      by apply labelled_not_note in Hin.
Qed.

(** ** Outcomes of the endpoint *)

Section Outcomes.

Context (E : Collaborators).

(** A completed [try] block returns the success response of some root
    node. *)
Lemma try_success_shape url tok mfs w response w' :
  get_tree_data_try E url tok mfs w = (inr response, w') →
  ∃ q root, response = success_response E q root w'.
Proof.
  destruct (parse_query E url mfs true (resolve_token tok) w)
    as [[e | q] w1] eqn:Hq.
  { rewrite (try_parse_raises E _ _ _ _ _ _ Hq). discriminate. }
  destruct (extract_clone_config E q) as [e | cc] eqn:Hcc.
  { rewrite (try_extract_raises E _ _ _ _ _ _ _ Hq Hcc). discriminate. }
  destruct (clone_repo E cc (resolve_token tok) w1) as [[e | []] w2] eqn:Hcl.
  { rewrite (try_clone_raises E _ _ _ _ _ _ _ _ _ Hq Hcc Hcl). discriminate. }
  rewrite (try_after_clone E _ _ _ _ _ _ _ _ Hq Hcc Hcl).
  destruct (is_dir E w2 (root_path q)).
  - destruct (_process_node E _ q FileSystemStats_new w2) as [[e | built] w3];
      [discriminate |].
    intros [= <- <-]. eauto.
  - intros [= <- <-]. eauto.
Qed.

Lemma try_success_query url tok mfs w response w' :
  get_tree_data_try E url tok mfs w = (inr response, w') →
  ∃ q w1 root,
    parse_query E url mfs true (resolve_token tok) w = (inr q, w1) ∧
    response = success_response E q root w'.
Proof.
  destruct (parse_query E url mfs true (resolve_token tok) w)
    as [[e | q] w1] eqn:Hq.
  { rewrite (try_parse_raises E _ _ _ _ _ _ Hq). discriminate. }
  destruct (extract_clone_config E q) as [e | cc] eqn:Hcc.
  { rewrite (try_extract_raises E _ _ _ _ _ _ _ Hq Hcc). discriminate. }
  destruct (clone_repo E cc (resolve_token tok) w1) as [[e | []] w2] eqn:Hcl.
  { rewrite (try_clone_raises E _ _ _ _ _ _ _ _ _ Hq Hcc Hcl). discriminate. }
  rewrite (try_after_clone E _ _ _ _ _ _ _ _ Hq Hcc Hcl).
  destruct (is_dir E w2 (root_path q)).
  - destruct (_process_node E _ q FileSystemStats_new w2) as [[e | built] w3];
      [discriminate |].
    intros [= <- <-]. eauto.
  - intros [= <- <-]. eauto.
Qed.

(** C3: a fatal error of the ingestion, a clone error included, gives a
    400 response that carries [success = false] and the message of the
    error, unchanged, and nothing else: no document comes with an
    error. *)
Theorem fatal_error_yields_bare_error (url tok : string) (mfs : Z) (w : World E) :
  (∀ e w',
     get_tree_data_try E url tok mfs w = (inl e, w') →
     get_tree_data E url tok mfs w = (error_response e, w') ∧
     status_code (error_response e) = 400 ∧
     body (error_response e) =
       [ ("success", JBool false); ("error", JStr (exc_str e)) ] ∧
     dict_get "data" (body (error_response e)) = None) ∧
  (∀ q w1 cc e w2,
     parse_query E url mfs true (resolve_token tok) w = (inr q, w1) →
     extract_clone_config E q = inr cc →
     clone_repo E cc (resolve_token tok) w1 = (inl e, w2) →
     get_tree_data E url tok mfs w = (error_response e, w2)) ∧
  (∀ q w1 cc w2 e w3,
     parse_query E url mfs true (resolve_token tok) w = (inr q, w1) →
     extract_clone_config E q = inr cc →
     clone_repo E cc (resolve_token tok) w1 = (inr (), w2) →
     is_dir E w2 (root_path q) = true →
     _process_node E (initial_root E q w2) q FileSystemStats_new w2 = (inl e, w3) →
     get_tree_data E url tok mfs w = (error_response e, w3)) ∧
  (∀ response w',
     get_tree_data E url tok mfs w = (response, w') →
     (status_code response = 200 ∧
      dict_get "success" (body response) = Some (JBool true) ∧
      has_key "data" (body response) = true ∧
      has_key "error" (body response) = false) ∨
     (status_code response = 400 ∧
      dict_get "success" (body response) = Some (JBool false) ∧
      dict_keys (body response) = ["success"; "error"] ∧
      ∃ msg, dict_get "error" (body response) = Some (JStr msg))).
Proof.
  split; [| split; [| split]].
  - intros e w' Htry. unfold get_tree_data. by rewrite Htry.
  - intros q w1 cc e w2 Hq Hcc Hcl. unfold get_tree_data.
    by rewrite (try_clone_raises E _ _ _ _ _ _ _ _ _ Hq Hcc Hcl).
  - intros q w1 cc w2 e w3 Hq Hcc Hcl Hdir Hb. unfold get_tree_data.
    by rewrite (try_after_clone E _ _ _ _ _ _ _ _ Hq Hcc Hcl), Hdir, Hb.
  - intros response w'. unfold get_tree_data.
    destruct (get_tree_data_try E url tok mfs w) as [[e | r] w1] eqn:Htry.
    + intros [= <- <-]. right. simpl. eauto.
    + intros [= <- <-]. left.
      destruct (try_success_shape _ _ _ _ _ _ Htry) as (q & root & ->).
      done.
Qed.

(** C9: when the root path is a file, the router serializes a FILE root
    node as constructed: the tree builder does not run, and the size
    and the counts of the document are the defaults of the constructor. *)
Theorem file_root_skips_builder
    (url tok : string) (mfs : Z) (w : World E) q w1 cc w2 :
  parse_query E url mfs true (resolve_token tok) w = (inr q, w1) →
  extract_clone_config E q = inr cc →
  clone_repo E cc (resolve_token tok) w1 = (inr (), w2) →
  is_dir E w2 (root_path q) = false →
  ∃ (root : FileSystemNode) (data : Dict),
    get_tree_data E url tok mfs w = (success_response E q root w2, w2) ∧
    type root = FILE ∧
    path root = root_path q ∧
    dict_get "data" (body (success_response E q root w2)) = Some (JDict data) ∧
    data = _filesystem_node_to_json (read_content E w2) root ∧
    dict_get "type" data = Some (JStr "file") ∧
    dict_get "size" data = Some (JInt (default_size E)) ∧
    dict_get "file_count" data = Some (JInt (default_file_count E)) ∧
    dict_get "dir_count" data = Some (JInt (default_dir_count E)) ∧
    ∀ builder,
      get_tree_data (with_builder E builder) url tok mfs w =
      get_tree_data E url tok mfs w.
Proof.
  intros Hq Hcc Hcl Hdir.
  assert (Hrun : ∀ builder,
            get_tree_data (with_builder E builder) url tok mfs w =
              (success_response E q (initial_root E q w2) w2, w2)).
  { intros builder. unfold get_tree_data.
    rewrite (try_after_clone (with_builder E builder) url tok mfs w q w1 cc w2
               Hq Hcc Hcl).
    simpl. rewrite Hdir. unfold initial_root. simpl. by rewrite Hdir. }
  assert (Hrun0 : get_tree_data E url tok mfs w =
                    (success_response E q (initial_root E q w2) w2, w2)).
  { unfold get_tree_data.
    by rewrite (try_after_clone E url tok mfs w q w1 cc w2 Hq Hcc Hcl), Hdir. }
  exists (initial_root E q w2), (_filesystem_node_to_json (read_content E w2)
                                   (initial_root E q w2)).
  assert (Hty : type (initial_root E q w2) = FILE)
    by (unfold initial_root; simpl; by rewrite Hdir).
  split; [done |]. split; [done |]. split; [done |]. split; [done |].
  split; [done |].
  rewrite (to_json_file _ _ Hty). unfold common_fields. rewrite Hty.
  repeat split; try reflexivity.
  intros builder. by rewrite Hrun, Hrun0.
Qed.

(** C10, amended: in the response of a successful ingestion,
    [total_files] and [total_dirs] are the counts of the root node, and
    the note on an empty repository is the last line of the summary
    exactly when the root node counts no file and no directory.  The
    summary then contains the note; it contains it in no other case
    provided the slug of the parsed query has no line feed. *)
Theorem summary_and_repo_info
    (url tok : string) (mfs : Z) (w : World E) (response : JSONResponse) w' :
  get_tree_data E url tok mfs w = (response, w') →
  status_code response = 200 →
  ∃ (q : Query) (w1 : World E) (root : FileSystemNode)
    (summary : string) (info : Dict),
    parse_query E url mfs true (resolve_token tok) w = (inr q, w1) ∧
    dict_get "data" (body response) =
      Some (JDict (_filesystem_node_to_json (read_content E w') root)) ∧
    dict_get "summary" (body response) = Some (JStr summary) ∧
    summary = make_summary q root ∧
    dict_get "repo_info" (body response) = Some (JDict info) ∧
    dict_get "slug" info = Some (JStr (slug q)) ∧
    dict_get "total_files" info = Some (JInt (file_count root)) ∧
    dict_get "total_dirs" info = Some (JInt (dir_count root)) ∧
    (last (lines summary) = Some note_empty ↔
       file_count root = 0 ∧ dir_count root = 0) ∧
    (file_count root = 0 ∧ dir_count root = 0 → note_empty ∈ lines summary) ∧
    (occurs NL (slug q) = false →
     (note_empty ∈ lines summary ↔ file_count root = 0 ∧ dir_count root = 0)).
Proof.
  unfold get_tree_data.
  destruct (get_tree_data_try E url tok mfs w) as [[e | r] w1] eqn:Htry.
  { intros [= <- <-]. discriminate. }
  intros [= <- <-] _.
  destruct (try_success_query _ _ _ _ _ _ Htry) as (q & w2 & root & Hq & ->).
  exists q, w2, root, (make_summary q root). eexists.
  split; [exact Hq |].
  do 7 (split; [reflexivity |]).
  destruct (summary_note q root) as (Hlast & Hin & Hout).
  split; [exact Hlast |]. split; [exact Hin |].
  intros Hslug. split; [by apply Hout | exact Hin].
Qed.

End Outcomes.

(** For a directory root the response is built from the node the tree
    builder returns; the accumulator it returns is not read. *)
Lemma directory_root_response
    (E : Collaborators) (url tok : string) (mfs : Z) (w : World E)
    q w1 cc w2 node stats w3 :
  parse_query E url mfs true (resolve_token tok) w = (inr q, w1) →
  extract_clone_config E q = inr cc →
  clone_repo E cc (resolve_token tok) w1 = (inr (), w2) →
  is_dir E w2 (root_path q) = true →
  _process_node E (initial_root E q w2) q FileSystemStats_new w2 =
    (inr (node, stats), w3) →
  get_tree_data E url tok mfs w = (success_response E q node w3, w3).
Proof.
  intros Hq Hcc Hcl Hdir Hb. unfold get_tree_data.
  by rewrite (try_after_clone E _ _ _ _ _ _ _ _ Hq Hcc Hcl), Hdir, Hb.
Qed.



(** C2: the router does not compare the accumulated [total_size] with
    the 1 GiB ceiling: for a repository one byte over the ceiling, and
    for the 2 GB repository of the test suite, it answers 200 with a
    document, where the claim and the tests expect a failure. *)
Theorem size_ceiling_not_checked :
  ∀ total : Z,
    total = GiB + 1 ∨ total = 2000000000 →
    let E := mock_env (inr ()) true (build_sized total) in
    let response :=
      (get_tree_data E "https://github.com/user/large-repo" ""
         (10 * 1024 * 1024) ()).1 in
    (∃ node stats,
       _process_node E (initial_root E mock_query ()) mock_query
         FileSystemStats_new () = (inr (node, stats), ()) ∧
       total_size stats = total ∧ GiB < total_size stats) ∧
    status_code response = 200 ∧
    dict_get "success" (body response) = Some (JBool true) ∧
    has_key "data" (body response) = true ∧
    has_key "error" (body response) = false.
Proof.
  intros total Htotal E response. split.
  - eexists _, _. split; [reflexivity |]. simpl.
    split; [done |]. unfold GiB in *. destruct Htotal as [-> | ->]; lia.
  - unfold response, E.
    rewrite (directory_root_response
               (mock_env (inr ()) true (build_sized total))
               "https://github.com/user/large-repo" "" (10 * 1024 * 1024) ()
               mock_query () () () _ _ () eq_refl eq_refl eq_refl eq_refl eq_refl).
    done.
Qed.

(** * Further properties of the serializer *)

Lemma rfind_present c s i :
  rfind c s = Some i →
  ∃ pre post,
    s = pre +:+ String c post ∧ String.length pre = i ∧ occurs c post = false.
Proof.
  revert i. induction s as [|a s IH]; simpl; [done |]. intros i.
  destruct (rfind c s) as [j |] eqn:Hj.
  - intros [= <-]. destruct (IH j eq_refl) as (pre & post & -> & Hlen & Hfree).
    exists (String a pre), post. simpl. by rewrite Hlen.
  - destruct (Ascii.eqb a c) eqn:Ha; [| done]. intros [= <-].
    apply Ascii.eqb_eq in Ha as ->. exists "", s. repeat split.
    clear IH. induction s as [|b s IHs]; simpl in *; [done |].
    destruct (rfind c s); [done |].
    destruct (Ascii.eqb b c); [done |]. by rewrite IHs.
Qed.

Lemma lower_ascii_idemp c : lower_ascii (lower_ascii c) = lower_ascii c.
Proof. destruct c as [[] [] [] [] [] [] [] []]; reflexivity. Qed.

Lemma lower_idemp s : lower (lower s) = lower s.
Proof.
  induction s as [|a s IH]; simpl; [done |].
  by rewrite lower_ascii_idemp, IH.
Qed.

(** The suffix of a name is empty, or the name splits at its last dot
    into a non-empty stem and a non-empty tail without dots. *)
Lemma name_suffix_cases nm :
  name_suffix nm = "" ∨
  ∃ stem ext,
    nm = stem +:+ "." +:+ ext ∧ stem ≠ "" ∧ ext ≠ "" ∧
    occurs "." ext = false ∧ name_suffix nm = "." +:+ ext.
Proof.
  unfold name_suffix. destruct (rfind "." nm) as [i |] eqn:Hi; [| by left].
  destruct (rfind_present _ _ _ Hi) as (pre & post & -> & Hlen & Hfree).
  destruct ((0 <? i)%nat && (i <? _)%nat) eqn:Hc; [| by left].
  right. exists pre, post.
  apply andb_true_iff in Hc as [H0%Nat.ltb_lt Hn%Nat.ltb_lt].
  rewrite string_length_app in Hn. simpl in Hn.
  split; [done |]. split; [intros ->; simpl in *; lia |].
  split; [intros ->; simpl in *; lia |]. split; [done |].
  by rewrite <- Hlen, slice_from_app.
Qed.

(** X1: the extension of a FILE document is decided by the last dot
    of the file name: it is empty when the name has no dot with text on
    both sides, and otherwise it is the lower-casing of the name from
    its last dot on; for ASCII text after the dot that is the dot
    followed by the text with its capitals lowered, and lowering it
    again changes nothing. *)
Theorem extension_shape (content : Path → string) (n : FileSystemNode) :
  type n = FILE →
  ∃ e : string,
    dict_get "extension" (_filesystem_node_to_json content n) = Some (JStr e) ∧
    ((e = "" ∧
      ¬ ∃ stem ext,
          path_name (path n) = stem +:+ "." +:+ ext ∧
          stem ≠ "" ∧ ext ≠ "" ∧ occurs "." ext = false) ∨
     (∃ stem ext,
        path_name (path n) = stem +:+ "." +:+ ext ∧
        stem ≠ "" ∧ ext ≠ "" ∧ occurs "." ext = false ∧
        e = str_lower ("." +:+ ext) ∧
        (is_ascii ext = true → e = "." +:+ lower ext ∧ lower e = e))).
Proof.
  intros Hty. exists (extension_of (path n)).
  split; [by rewrite (to_json_file content n Hty) |].
  rewrite extension_of_suffix.
  destruct (name_suffix_cases (path_name (path n)))
    as [He | (stem & ext & Hnm & Hstem & Hext & Hfree & He)].
  - left. rewrite He. split; [apply str_lower_empty |].
    intros (stem & ext & Hnm & Hstem & Hext & Hfree).
    rewrite Hnm, (name_suffix_split _ _ Hstem Hext Hfree) in He. discriminate.
  - right. exists stem, ext. rewrite He. do 5 (split; [done |]).
    intros Hascii. rewrite (str_lower_dot_ascii _ Hascii). split; [done |].
    by rewrite lower_dot, lower_idemp.
Qed.

(** X2: the serializer reads the content of the FILE nodes it reaches
    through directories and of nothing else: two sources of content that
    agree on those paths give the same document. *)
Theorem serializer_reads_reached_files
    (content content' : Path → string) (n : FileSystemNode) :
  (∀ p, p ∈ content_reads n → content p = content' p) →
  _filesystem_node_to_json content n = _filesystem_node_to_json content' n.
Proof. apply to_json_content_agree. Qed.

Lemma to_json_children_lookup (content : Path → string) n :
  dict_get "children" (_filesystem_node_to_json content n) =
    match type n with
    | FILE => None
    | DIRECTORY =>
        Some (JList (JDict <$> (_filesystem_node_to_json content <$> children n)))
    end.
Proof.
  destruct (type n) eqn:Hty.
  - by rewrite (to_json_file content n Hty).
  - by rewrite (to_json_directory content n Hty).
Qed.

(** X3: going down a document by child indices gives the document of
    the node reached by the same indices, and fails where the tree has
    no such node or passes through a FILE node. *)
Theorem document_navigation
    (content : Path → string) (indices : list nat) (n : FileSystemNode) :
  doc_at indices (_filesystem_node_to_json content n) =
    _filesystem_node_to_json content <$> node_at indices n.
Proof.
  revert n. induction indices as [|i rest IH]; intros n; [done |].
  simpl. rewrite to_json_children_lookup.
  destruct (type n); [done |].
  rewrite !list_lookup_fmap.
  destruct (children n !! i) as [child |]; simpl; [apply IH | done].
Qed.

(** * Further properties of the serializer over objects *)

Section HeapRuns.

Variable content : Path → string.

Lemma mapM_heap_store (f : loc → Heap Dict) ls σ :
  (∀ l σ', (f l σ').2 = σ') → (mapM f ls σ).2 = σ.
Proof.
  intros Hf. induction ls as [|l ls IH]; [done |].
  change (mapM f (l :: ls) σ)
    with ((d ← f l; ds ← mapM f ls; mret (d :: ds)) σ).
  unfold mbind, Heap_bind.
  pose proof (Hf l σ) as Hl. destruct (f l σ) as [[d | e |] σ1]; simpl in *;
    subst σ1; [| done | done].
  destruct (mapM f ls σ) as [[ds | e |] σ2]; simpl in *; by subst σ2.
Qed.

Lemma serializer_never_writes_aux (fuel : nat) (l : loc) (σ : Store) :
  (node_to_json_heap content fuel l σ).2 = σ.
Proof.
  revert l σ. induction fuel as [|fuel IH]; intros l σ; [done |].
  simpl. unfold mbind, Heap_bind, deref.
  destruct (σ !! l) as [o |]; [| done].
  destruct (o_type o); [done |].
  pose proof (mapM_heap_store (node_to_json_heap content fuel) (o_children o) σ IH)
    as Hcs.
  destruct (mapM (node_to_json_heap content fuel) (o_children o) σ)
    as [[ds | e |] σ1]; simpl in *; by subst σ1.
Qed.

Lemma heap_bind_inv {A B} (m : Heap A) (k : A → Heap B) σ b σ' :
  (m ≫= k) σ = (Ok b, σ') →
  ∃ a σ1, m σ = (Ok a, σ1) ∧ k a σ1 = (Ok b, σ').
Proof.
  unfold mbind, Heap_bind.
  destruct (m σ) as [[a | e |] σ1]; [by eauto | done | done].
Qed.

Lemma mapM_heap_ok (f : loc → Heap Dict) ls σ ds σ' :
  (∀ l σ1, (f l σ1).2 = σ1) →
  mapM f ls σ = (Ok ds, σ') →
  ∀ l, l ∈ ls → ∃ d, f l σ = (Ok d, σ).
Proof.
  intros Hf. revert ds σ'. induction ls as [|a ls IH]; intros ds σ' Hrun l Hl.
  { by apply elem_of_nil in Hl. }
  change (mapM f (a :: ls) σ)
    with ((d ← f a; ds ← mapM f ls; mret (d :: ds)) σ) in Hrun.
  apply heap_bind_inv in Hrun as (d & σ1 & Hfa & Hrun).
  pose proof (Hf a σ) as Ha. rewrite Hfa in Ha. simpl in Ha. subst σ1.
  apply heap_bind_inv in Hrun as (ds' & σ2 & Hls & _).
  apply elem_of_cons in Hl as [-> | Hl]; [by eauto |].
  by eapply IH.
Qed.

(** A directory that returns a document has children that return one
    with one unit of fuel less. *)
Lemma heap_ok_child fuel σ a b d σ' :
  node_to_json_heap content (S fuel) a σ = (Ok d, σ') →
  dir_edge σ a b →
  ∃ d', node_to_json_heap content fuel b σ = (Ok d', σ).
Proof.
  intros Hrun (o & Ha & Hty & Hb). simpl in Hrun.
  apply heap_bind_inv in Hrun as (o' & σ1 & Hd & Hrun).
  unfold deref in Hd. rewrite Ha in Hd. injection Hd as <- <-.
  rewrite Hty in Hrun.
  apply heap_bind_inv in Hrun as (ds & σ2 & Hcs & _).
  exact (mapM_heap_ok _ _ _ _ _ (serializer_never_writes_aux fuel) Hcs b Hb).
Qed.

Lemma on_cycle_step (σ : Store) a :
  tc (dir_edge σ) a a → ∃ b, dir_edge σ a b ∧ tc (dir_edge σ) b b.
Proof.
  intros Hc. inversion Hc as [? ? Hab | ? b ? Hab Hba]; subst.
  - exists a. by split.
  - exists b. split; [done |]. by eapply tc_r.
Qed.

(** X5: when a directory object lies on a cycle of the child relation,
    the serializer returns no document from it with any amount of fuel:
    the recursion has no guard against cycles. *)
Theorem cycle_never_serialized (σ : Store) (l : loc) (fuel : nat) :
  tc (dir_edge σ) l l →
  ∀ d σ', node_to_json_heap content fuel l σ ≠ (Ok d, σ').
Proof.
  revert l. induction fuel as [|fuel IH]; intros l Hc d σ' Hrun; [done |].
  destruct (on_cycle_step σ l Hc) as (b & Hlb & Hb).
  destruct (heap_ok_child _ _ _ _ _ _ Hrun Hlb) as [d' Hd'].
  exact (IH b Hb d' σ Hd').
Qed.

End HeapRuns.

(** * Further properties of the endpoint *)

(** X6: a failure stops the ingestion where it happens: when parsing
    the URL or extracting the clone configuration fails, the answer is
    the same whatever the cloning and the tree builder would do, and
    when the clone fails, whatever the tree builder would do; the world
    is the one the failing step left. *)
Theorem failure_stops_ingestion
    (E : Collaborators) (url tok : string) (mfs : Z) (w : World E) :
  (∀ e w1,
     parse_query E url mfs true (resolve_token tok) w = (inl e, w1) →
     ∀ clone builder,
       get_tree_data (with_builder (with_clone E clone) builder) url tok mfs w =
         (error_response e, w1)) ∧
  (∀ q w1 e,
     parse_query E url mfs true (resolve_token tok) w = (inr q, w1) →
     extract_clone_config E q = inl e →
     ∀ clone builder,
       get_tree_data (with_builder (with_clone E clone) builder) url tok mfs w =
         (error_response e, w1)) ∧
  (∀ q w1 cc e w2,
     parse_query E url mfs true (resolve_token tok) w = (inr q, w1) →
     extract_clone_config E q = inr cc →
     clone_repo E cc (resolve_token tok) w1 = (inl e, w2) →
     ∀ builder,
       get_tree_data (with_builder E builder) url tok mfs w =
         (error_response e, w2)).
Proof.
  split; [| split].
  - intros e w1 Hq clone builder. unfold get_tree_data.
    by rewrite (try_parse_raises
                  (with_builder (with_clone E clone) builder) _ _ _ _ _ _ Hq).
  - intros q w1 e Hq He clone builder. unfold get_tree_data.
    by rewrite (try_extract_raises
                  (with_builder (with_clone E clone) builder) _ _ _ _ _ _ _ Hq He).
  - intros q w1 cc e w2 Hq Hcc Hcl builder. unfold get_tree_data.
    by rewrite (try_clone_raises
                  (with_builder E builder) _ _ _ _ _ _ _ _ _ Hq Hcc Hcl).
Qed.


(** X8: for a slug on one line, the summary has three lines, the
    repository, the number of files and the number of directories, and
    a fourth line, the note, exactly when both numbers are zero. *)
Theorem summary_lines (q : Query) (root : FileSystemNode) :
  occurs NL (slug q) = false →
  lines (make_summary q root) =
    ([ "Repository: " +:+ slug q;
       "Files: " +:+ str_of_int (file_count root);
       "Directories: " +:+ str_of_int (dir_count root) ] ++
     (if decide (file_count root = 0 ∧ dir_count root = 0)
      then [note_empty] else []))%list.
Proof.
  intros Hslug. rewrite lines_make_summary. unfold lines.
  rewrite (labelled_one_line "Repository: ") by done.
  destruct (decide (file_count root = 0 ∧ dir_count root = 0)) as [[-> ->] | Hnz];
    [done |].
  destruct ((file_count root =? 0)%Z && (dir_count root =? 0)%Z) eqn:Hc; [| done].
  apply andb_true_iff in Hc as [?%Z.eqb_eq ?%Z.eqb_eq]. by destruct Hnz.
Qed.

(** ** The root path *)

Lemma Path_of_components s :
  Forall (λ x, is_component x = true ∧ occurs "/" x = false) (parts (Path_of s)).
Proof.
  apply Forall_forall. intros x [Hc Hx]%list_elem_of_filter. split; [done |].
  by apply (proj1 (Forall_forall _ _) (split_pieces "/" s)).
Qed.

Lemma split_join (ps : list string) :
  ps ≠ [] → Forall (λ x, occurs "/" x = false) ps →
  split "/" (join "/" ps) = ps.
Proof.
  induction ps as [|x ps IH]; [done |]. intros _ Hps.
  inversion Hps as [|? ? Hx Hrest]; subst.
  destruct ps as [|y ps]; [by apply split_absent |].
  change (join "/" (x :: y :: ps)) with (x +:+ String "/" (join "/" (y :: ps))).
  by rewrite split_app_sep, (split_absent _ _ Hx), IH.
Qed.

Lemma filter_components (ps : list string) :
  Forall (λ x, is_component x = true) ps →
  filter (λ x, is_component x = true) ps = ps.
Proof.
  induction 1 as [|x ps Hx _ IH]; [done |].
  by rewrite filter_cons_True, IH.
Qed.

(** Printing a relative path and reading it back gives its components. *)
Lemma Path_of_as_posix p :
  absolute p = false →
  Forall (λ x, is_component x = true ∧ occurs "/" x = false) (parts p) →
  parts (Path_of (as_posix p)) = parts p.
Proof.
  intros Hrel Hparts. unfold as_posix. rewrite Hrel.
  destruct (parts p) as [|x ps] eqn:Hp; [reflexivity |].
  change (parts (Path_of (join "/" (x :: ps))) = x :: ps).
  unfold Path_of. cbn [parts].
  rewrite split_join; [| done | by eapply Forall_impl; [exact Hparts | intros ? []]].
  apply filter_components.
  by eapply Forall_impl; [exact Hparts | intros ? []].
Qed.

(** X9: the root path always lies under the clone directory, so the
    call of [relative_to] never raises: the root path is the clone
    directory extended by the components of the subpath, and the
    relative path the root node carries is the subpath without its
    leading and trailing slashes, normalised; it never starts with a
    slash. *)
Theorem root_path_under_clone_directory (q : Query) :
  ∃ rel : Path,
    relative_to (root_path q) (local_path q) = inr rel ∧
    rel = Path_of (strip "/" (subpath q)) ∧
    absolute rel = false ∧
    absolute (root_path q) = absolute (local_path q) ∧
    parts (root_path q) = (parts (local_path q) ++ parts rel)%list ∧
    Forall (λ x, x ≠ "" ∧ x ≠ "." ∧ occurs "/" x = false) (parts rel) ∧
    head_not "/" (as_posix rel).
Proof.
  pose proof (strip_head "/" (subpath q)) as Hhead.
  pose proof (Path_of_relative _ Hhead) as Hrel.
  pose proof (Path_of_components (strip "/" (subpath q))) as Hcomp.
  pose proof (Path_of_as_posix _ Hrel Hcomp) as Hround.
  exists (Path_of (strip "/" (subpath q))).
  assert (Hrelative :
    absolute (Path_of (as_posix (Path_of (strip "/" (subpath q))))) = false)
    by apply Path_of_relative, as_posix_relative_head, Hhead.
  split; [| split; [done | split; [done | split; [| split; [| split]]]]].
  - rewrite relative_to_root_path, Hround. f_equal.
    destruct (Path_of (strip "/" (subpath q))); simpl in *. by subst.
  - unfold root_path, joinpath. by rewrite Hrelative.
  - unfold root_path, joinpath. rewrite Hrelative. cbn [parts].
    by rewrite Hround.
  - eapply Forall_impl; [exact Hcomp |]. intros x [Hc Hfree].
    by repeat split; [intros -> .. | done].
  - by apply as_posix_relative_head.
Qed.

Lemma strip_all_chars c s : all_chars c s = true → strip c s = "".
Proof.
  unfold strip. induction s as [|a s IH]; simpl; [done |].
  intros [Ha Hs]%andb_true_iff. rewrite Ha. by apply IH.
Qed.

(** X10: for a subpath that is empty or consists of slashes only, the
    root node stands for the clone directory itself: its path is the
    clone directory, its [path] field is ["."], and its name is the name
    of the clone directory, or the slug when that directory has no
    name. *)
Theorem empty_subpath_root
    (E : Collaborators) (q : Query) (w : World E) :
  all_chars "/" (subpath q) = true →
  path (initial_root E q w) = local_path q ∧
  path_str (initial_root E q w) = "." ∧
  name (initial_root E q w) =
    (if truthy (path_name (local_path q)) then path_name (local_path q)
     else slug q).
Proof.
  intros Hall. unfold initial_root, root_path.
  rewrite (strip_all_chars _ _ Hall). simpl.
  assert (Hlp : joinpath (local_path q) "." = local_path q).
  { unfold joinpath. simpl. rewrite app_nil_r. by destruct (local_path q). }
  change (as_posix (Path_of "")) with ".". by rewrite Hlp.
Qed.

End Properties.

(** * Examples

    The statements above at concrete inputs with ASCII names, on which
    every case mapping acts as [lower]. *)

#[global] Existing Instance ascii_case_mapping.

Lemma extension_is_lowered_suffix_witness :
  dict_get "extension"
    (_filesystem_node_to_json (λ _, "")
       (mkNode "Archive.TAR.GZ" FILE "src/Archive.TAR.GZ"
          (Path_of "/tmp/repo/src/Archive.TAR.GZ") 10 1 0 0 [])) =
  Some (JStr ".gz").
Proof.
  refine (proj2 (proj1 (proj2 (extension_is_lowered_suffix (λ _, "")
            (mkNode "Archive.TAR.GZ" FILE "src/Archive.TAR.GZ"
               (Path_of "/tmp/repo/src/Archive.TAR.GZ") 10 1 0 0 [])
            "Archive.TAR.GZ" _ _)) "Archive.TAR" "GZ" _ _ _ _) _);
    first [reflexivity | discriminate].
Defined.

Lemma serializer_total_and_pure_witness :
  ∃ d : Dict,
    node_to_json_heap (λ _, "") 2 1%positive sample_store = (Ok d, sample_store) ∧
    d = _filesystem_node_to_json (λ _, "") sample_dir_node ∧
    represents sample_store 1%positive sample_dir_node.
Proof.
  apply (serializer_total_and_pure (λ _, "") sample_store 1%positive
           sample_dir_node 2).
  - apply sample_dir_represented. by left.
  - vm_compute. lia.
Defined.


Lemma size_ceiling_not_checked_witness :
  status_code
    (get_tree_data (mock_env (inr ()) true (build_sized (GiB + 1)))
       "https://github.com/user/large-repo" "" (10 * 1024 * 1024) ()).1 = 200.
Proof.
  exact (proj1 (proj2 (size_ceiling_not_checked (GiB + 1) (or_introl eq_refl)))).
Defined.

Lemma fatal_error_yields_bare_error_witness :
  get_tree_data
    (mock_env (inl (mkExc "Exception" "Repository not found")) true build_empty)
    "https://github.com/user/nonexistent" "" (10 * 1024 * 1024) () =
  (error_response (mkExc "Exception" "Repository not found"), ()).
Proof.
  apply (proj1 (proj2 (fatal_error_yields_bare_error
           (mock_env (inl (mkExc "Exception" "Repository not found")) true
              build_empty)
           "https://github.com/user/nonexistent" "" (10 * 1024 * 1024) ()))
         mock_query () () (mkExc "Exception" "Repository not found") ());
    reflexivity.
Defined.

Lemma file_root_skips_builder_witness :
  ∃ (root : FileSystemNode) (data : Dict),
    get_tree_data (mock_env (inr ()) false (build_sized 4096))
      "https://github.com/user/repo" "" (10 * 1024 * 1024) () =
      (success_response (mock_env (inr ()) false (build_sized 4096))
         mock_query root (), ()) ∧
    type root = FILE ∧
    path root = root_path mock_query ∧
    dict_get "data"
      (body (success_response (mock_env (inr ()) false (build_sized 4096))
               mock_query root ())) = Some (JDict data) ∧
    data = _filesystem_node_to_json (λ _, "") root ∧
    dict_get "type" data = Some (JStr "file") ∧
    dict_get "size" data = Some (JInt 0) ∧
    dict_get "file_count" data = Some (JInt 0) ∧
    dict_get "dir_count" data = Some (JInt 0) ∧
    ∀ builder,
      get_tree_data
        (with_builder (mock_env (inr ()) false (build_sized 4096)) builder)
        "https://github.com/user/repo" "" (10 * 1024 * 1024) () =
      get_tree_data (mock_env (inr ()) false (build_sized 4096))
        "https://github.com/user/repo" "" (10 * 1024 * 1024) ().
Proof.
  apply (file_root_skips_builder (mock_env (inr ()) false (build_sized 4096))
           "https://github.com/user/repo" "" (10 * 1024 * 1024) ()
           mock_query () () ());
    reflexivity.
Defined.

Lemma summary_and_repo_info_witness :
  ∃ (q : Query) (w1 : unit) (root : FileSystemNode)
    (summary : string) (info : Dict),
    parse_query (mock_env (inr ()) true build_empty)
      "https://github.com/user/empty-repo" (10 * 1024 * 1024) true
      (resolve_token "") () = (inr q, w1) ∧
    dict_get "data"
      (body (get_tree_data (mock_env (inr ()) true build_empty)
               "https://github.com/user/empty-repo" "" (10 * 1024 * 1024) ()).1) =
      Some (JDict (_filesystem_node_to_json (λ _, "") root)) ∧
    dict_get "summary"
      (body (get_tree_data (mock_env (inr ()) true build_empty)
               "https://github.com/user/empty-repo" "" (10 * 1024 * 1024) ()).1) =
      Some (JStr summary) ∧
    summary = make_summary q root ∧
    dict_get "repo_info"
      (body (get_tree_data (mock_env (inr ()) true build_empty)
               "https://github.com/user/empty-repo" "" (10 * 1024 * 1024) ()).1) =
      Some (JDict info) ∧
    dict_get "slug" info = Some (JStr (slug q)) ∧
    dict_get "total_files" info = Some (JInt (file_count root)) ∧
    dict_get "total_dirs" info = Some (JInt (dir_count root)) ∧
    (last (lines summary) = Some note_empty ↔
       file_count root = 0 ∧ dir_count root = 0) ∧
    (file_count root = 0 ∧ dir_count root = 0 → note_empty ∈ lines summary) ∧
    (occurs NL (slug q) = false →
     (note_empty ∈ lines summary ↔ file_count root = 0 ∧ dir_count root = 0)).
Proof.
  apply (summary_and_repo_info (mock_env (inr ()) true build_empty)
           "https://github.com/user/empty-repo" "" (10 * 1024 * 1024) ()
           _ ());
    reflexivity.
Defined.

Lemma summary_and_repo_info_counterexample :
  ∃ (root : FileSystemNode) (summary : string),
    get_tree_data two_line_env "https://github.com/user/repo" ""
      (10 * 1024 * 1024) () =
      (success_response two_line_env two_line_query root (), ()) ∧
    status_code (success_response two_line_env two_line_query root ()) = 200 ∧
    dict_get "summary" (body (success_response two_line_env two_line_query root ())) =
      Some (JStr summary) ∧
    ¬ (note_empty ∈ lines summary ↔ file_count root = 0 ∧ dir_count root = 0).
Proof.
  eexists _, _. split; [reflexivity |]. split; [reflexivity |].
  split; [reflexivity |].
  intros [Hin _].
  assert (H : file_count
                (mkNode "test-repo" DIRECTORY "." (Path_of "/tmp/test-repo")
                   4096 0 1000 100 []) = 0 ∧
              dir_count
                (mkNode "test-repo" DIRECTORY "." (Path_of "/tmp/test-repo")
                   4096 0 1000 100 []) = 0).
  { apply Hin. vm_compute. apply list_elem_of_further, list_elem_of_here. }
  destruct H as [H _]. discriminate H.
Qed.

Lemma extension_shape_witness :
  ∃ e : string,
    dict_get "extension" (_filesystem_node_to_json (λ _, "") sample_file_node) =
      Some (JStr e) ∧
    ((e = "" ∧
      ¬ ∃ stem ext,
          path_name (path sample_file_node) = stem +:+ "." +:+ ext ∧
          stem ≠ "" ∧ ext ≠ "" ∧ occurs "." ext = false) ∨
     (∃ stem ext,
        path_name (path sample_file_node) = stem +:+ "." +:+ ext ∧
        stem ≠ "" ∧ ext ≠ "" ∧ occurs "." ext = false ∧
        e = str_lower ("." +:+ ext) ∧
        (is_ascii ext = true → e = "." +:+ lower ext ∧ lower e = e))).
Proof. apply (extension_shape (λ _, "") sample_file_node). reflexivity. Defined.

Lemma serializer_reads_reached_files_witness :
  _filesystem_node_to_json
    (λ p, if decide (p = path sample_file_node) then "print(1)" else "") sample_dir_node =
  _filesystem_node_to_json
    (λ p, if decide (p = path sample_file_node) then "print(1)" else "binary")
    sample_dir_node.
Proof.
  apply (serializer_reads_reached_files
           (λ p, if decide (p = path sample_file_node) then "print(1)" else "")
           (λ p, if decide (p = path sample_file_node) then "print(1)" else "binary")
           sample_dir_node).
  intros p Hp. apply list_elem_of_singleton in Hp. subst p. reflexivity.
Defined.

Lemma cycle_never_serialized_witness :
  tc (dir_edge cyclic_store) 1%positive 1%positive ∧
  node_to_json_heap (λ _, "") 1000 1%positive cyclic_store ≠
    (Ok [("name", JStr "a")], cyclic_store).
Proof.
  assert (Hcycle : tc (dir_edge cyclic_store) 1%positive 1%positive).
  { apply (tc_l _ _ 2%positive); [| apply tc_once];
      eexists; (split; [reflexivity |]); (split; [reflexivity |]);
      apply list_elem_of_here. }
  split; [exact Hcycle |].
  exact (cycle_never_serialized (λ _, "") cyclic_store 1%positive 1000 Hcycle
           [("name", JStr "a")] cyclic_store).
Defined.

Lemma failure_stops_ingestion_witness :
  get_tree_data
    (with_builder
       (mock_env (inl (mkExc "Exception" "Bad credentials")) true build_empty)
       (λ node _ _, lift_result (build_sized 4096 node)))
    "https://github.com/user/private-repo" "invalid_token" (10 * 1024 * 1024) () =
  (error_response (mkExc "Exception" "Bad credentials"), ()).
Proof.
  apply (proj2 (proj2 (failure_stops_ingestion
           (mock_env (inl (mkExc "Exception" "Bad credentials")) true build_empty)
           "https://github.com/user/private-repo" "invalid_token"
           (10 * 1024 * 1024) ()))
         mock_query () () (mkExc "Exception" "Bad credentials") ());
    reflexivity.
Defined.


Lemma summary_lines_witness :
  lines (make_summary mock_query sample_dir_node) =
    ([ "Repository: " +:+ slug mock_query;
       "Files: " +:+ str_of_int (file_count sample_dir_node);
       "Directories: " +:+ str_of_int (dir_count sample_dir_node) ] ++
     (if decide (file_count sample_dir_node = 0 ∧ dir_count sample_dir_node = 0)
      then [note_empty] else []))%list.
Proof. apply (summary_lines mock_query sample_dir_node). reflexivity. Defined.

Lemma empty_subpath_root_witness :
  path (initial_root (mock_env (inr ()) true build_empty) mock_query ()) =
    local_path mock_query ∧
  path_str (initial_root (mock_env (inr ()) true build_empty) mock_query ()) = "." ∧
  name (initial_root (mock_env (inr ()) true build_empty) mock_query ()) =
    (if truthy (path_name (local_path mock_query))
     then path_name (local_path mock_query) else slug mock_query).
Proof.
  apply (empty_subpath_root (mock_env (inr ()) true build_empty) mock_query ()).
  reflexivity.
Defined.
